(** * Verification of the Notus platform service wrappers

    Shallow embedding of
    - [src/runpod-template/handler.py]: [generate_response] and [handler];
    - [src/server/openmanus_bridge.py]: [execute_task] and [chat].

    Python values received as JSON (job payloads, message dicts, agent
    results) are modelled by [pyval]; a raised Python exception by [exn].
    The inference engine ([llm.generate]) and the agent ([agent.run]) are
    third-party and appear as function parameters. *)

From Stdlib Require Import String Ascii List ZArith Bool.
From Stdlib Require Import DecimalString.
Import ListNotations.
Open Scope string_scope.
Local Set Warnings "-register-all".

(* ------------------------------------------------------------------ *)
(** ** Python values *)

(** A float is kept as its Python [repr] text (e.g. ["0.7"]): the code
    never does arithmetic on floats, it only passes them along. A dict is
    an association list with string keys (JSON objects), first match wins. *)
Inductive pyval : Type :=
| PNone
| PBool (b : bool)
| PInt (z : Z)
| PFloat (repr : string)
| PStr (s : string)
| PList (l : list pyval)
| PDict (d : list (string * pyval)).

Definition pydict := list (string * pyval).

(** [d.get(k)] without default: [None] when the key is absent. *)
Fixpoint dict_lookup (d : pydict) (k : string) : option pyval :=
  match d with
  | [] => None
  | (k', v) :: d' => if String.eqb k k' then Some v else dict_lookup d' k
  end.

(** [d.get(k, default)] *)
Definition dict_get (d : pydict) (k : string) (default : pyval) : pyval :=
  match dict_lookup d k with
  | Some v => v
  | None => default
  end.

(** Python truthiness ([bool(v)]) of the value kinds in [pyval]. *)
Definition py_truthy (v : pyval) : bool :=
  match v with
  | PNone => false
  | PBool b => b
  | PInt z => negb (Z.eqb z 0)
  | PFloat r => negb (String.eqb r "0.0" || String.eqb r "-0.0")
  | PStr s => negb (String.eqb s "")
  | PList l => match l with [] => false | _ => true end
  | PDict d => match d with [] => false | _ => true end
  end.

Definition Z_to_string (z : Z) : string := NilZero.string_of_int (Z.to_int z).

Fixpoint join (sep : string) (l : list string) : string :=
  match l with
  | [] => ""
  | [x] => x
  | x :: l' => x ++ sep ++ join sep l'
  end.

Definition backslash : ascii := ascii_of_nat 92.
Definition squote : ascii := ascii_of_nat 39.
Definition dquote : ascii := ascii_of_nat 34.

Definition hex_digit (n : nat) : ascii :=
  if (n <? 10)%nat then ascii_of_nat (48 + n) else ascii_of_nat (87 + n).

(** One character inside [repr] of a string quoted with [q]: backslash,
    the quote, \t \n \r escaped; the other characters that are not
    printable in Python (controls, 0x7f..0xa0, the soft hyphen 0xad) as
    \xNN; the rest as is. *)
Definition py_repr_char (q c : ascii) : string :=
  let n := nat_of_ascii c in
  if (n =? 92)%nat then String backslash (String backslash EmptyString)
  else if Ascii.eqb c q then String backslash (String q EmptyString)
  else if (n =? 9)%nat then String backslash "t"
  else if (n =? 10)%nat then String backslash "n"
  else if (n =? 13)%nat then String backslash "r"
  else if (n <? 32)%nat || (n =? 127)%nat || ((128 <=? n) && (n <=? 160))%nat
          || (n =? 173)%nat
  then String backslash (String "x" (String (hex_digit (n / 16))
                                      (String (hex_digit (n mod 16)) EmptyString)))
  else String c EmptyString.

(** [repr(s)] of a string: single quotes, unless [s] holds a single quote
    and no double quote. *)
Definition py_repr_str (s : string) : string :=
  let cs := list_ascii_of_string s in
  let q := if existsb (Ascii.eqb squote) cs && negb (existsb (Ascii.eqb dquote) cs)
           then dquote else squote in
  String q (String.concat "" (map (py_repr_char q) cs) ++ String q EmptyString).

(** [str(v)] (as used by an f-string and by [str(result)]); inside
    containers Python prints [repr] of the elements and keys. *)
Fixpoint py_str_gen (inner : bool) (v : pyval) : string :=
  match v with
  | PNone => "None"
  | PBool b => if b then "True" else "False"
  | PInt z => Z_to_string z
  | PFloat r => r
  | PStr s => if inner then py_repr_str s else s
  | PList l => "[" ++ join ", " (map (py_str_gen true) l) ++ "]"
  | PDict d =>
      "{" ++ join ", "
        (map (fun kv => py_repr_str (fst kv) ++ ": " ++ py_str_gen true (snd kv)) d)
      ++ "}"
  end.

Definition py_str (v : pyval) : string := py_str_gen false v.

(** Characters for which Python's [str.isspace] holds. A character of a
    [string] is read as the code point 0..255 (Latin-1); in that range
    these are \t \n \v \f \r (9..13), the separators 0x1c..0x1f, the
    space, NEL (0x85) and NO-BREAK SPACE (0xa0). *)
Definition py_isspace (c : ascii) : bool :=
  let n := nat_of_ascii c in
  ((9 <=? n) && (n <=? 13))%nat || ((28 <=? n) && (n <=? 32))%nat ||
  (n =? 133)%nat || (n =? 160)%nat.

Fixpoint lstrip_list (l : list ascii) : list ascii :=
  match l with
  | [] => []
  | c :: l' => if py_isspace c then lstrip_list l' else l
  end.

(** [s.strip()] *)
Definition py_strip (s : string) : string :=
  string_of_list_ascii
    (rev (lstrip_list (rev (lstrip_list (list_ascii_of_string s))))).

(* ------------------------------------------------------------------ *)
(** ** Exceptions and a state/error monad recording engine calls *)

(** A raised exception (an instance of a subclass of [Exception]):
    its class name and [str(e)]. *)
Record exn : Type := mk_exn { exn_type : string; exn_msg : string }.

Inductive outcome (A : Type) : Type :=
| Ret (a : A)
| Exc (e : exn).
Arguments Ret {A} a.
Arguments Exc {A} e.

Definition AttributeError (msg : string) : exn := mk_exn "AttributeError" msg.
Definition TypeError (msg : string) : exn := mk_exn "TypeError" msg.
Definition IndexError (msg : string) : exn := mk_exn "IndexError" msg.

(** Results of the third-party engine [llm.generate] (vLLM). *)
Record CompletionOutput : Type := mk_completion {
  co_text : string;
  co_token_ids : list Z;
  co_finish_reason : option string }.

Record RequestOutput : Type := mk_request_output {
  ro_request_id : string;
  ro_prompt_token_ids : list Z;
  ro_outputs : list CompletionOutput }.

(** The keyword arguments given to [SamplingParams(...)]. *)
Record SamplingParams : Type := mk_sampling {
  sp_temperature : pyval;
  sp_top_p : pyval;
  sp_top_k : pyval;
  sp_max_tokens : pyval;
  sp_stop : pyval;
  sp_presence_penalty : pyval;
  sp_frequency_penalty : pyval }.

(** One call [llm.generate(prompts, sampling_params)]. *)
Definition call : Type := (list string * SamplingParams)%type.

(** Computations that may raise, threading the list of engine calls made
    so far (oldest first). *)
Definition M (A : Type) : Type := list call -> outcome A * list call.

Definition ret {A} (a : A) : M A := fun tr => (Ret a, tr).
Definition raise {A} (e : exn) : M A := fun tr => (Exc e, tr).
Definition bind {A B} (m : M A) (k : A -> M B) : M B :=
  fun tr => match m tr with
            | (Ret a, tr') => k a tr'
            | (Exc e, tr') => (Exc e, tr')
            end.
(** [try: m except Exception as e: h(e)] *)
Definition try_except {A} (m : M A) (h : exn -> M A) : M A :=
  fun tr => match m tr with
            | (Exc e, tr') => h e tr'
            | r => r
            end.
Definition lift {A} (o : outcome A) : M A :=
  match o with Ret a => ret a | Exc e => raise e end.

Notation "x <- m ;; k" := (bind m (fun x => k))
  (at level 61, m at next level, right associativity).

(** [xs[i]] on a list *)
Definition py_index {A} (xs : list A) (i : nat) : outcome A :=
  match nth_error xs i with
  | Some x => Ret x
  | None => Exc (IndexError "list index out of range")
  end.

Definition py_type_name (v : pyval) : string :=
  match v with
  | PNone => "NoneType" | PBool _ => "bool" | PInt _ => "int"
  | PFloat _ => "float" | PStr _ => "str" | PList _ => "list"
  | PDict _ => "dict"
  end.

(** [for x in v]: the elements a [for] loop visits. *)
Definition py_iter (v : pyval) : outcome (list pyval) :=
  match v with
  | PList l => Ret l
  | PStr s => Ret (map (fun c => PStr (String c EmptyString))
                       (list_ascii_of_string s))
  | PDict d => Ret (map (fun kv => PStr (fst kv)) d)
  | _ => Exc (TypeError ("'" ++ py_type_name v ++ "' object is not iterable"))
  end.

(** Raised by [v.get] on a value that is not a dict. *)
Definition no_get (v : pyval) : exn :=
  AttributeError ("'" ++ py_type_name v ++ "' object has no attribute 'get'").

(** [v.get(k, default)] where [v] must be a dict. *)
Definition py_get (v : pyval) (k : string) (default : pyval) : outcome pyval :=
  match v with
  | PDict d => Ret (dict_get d k default)
  | _ => Exc (no_get v)
  end.

(* ------------------------------------------------------------------ *)
(** ** [src/runpod-template/handler.py] *)

Definition nl : string := String (ascii_of_nat 10) EmptyString.

(** The trailing open assistant turn, ["<|assistant|>\n"]. *)
Definition assistant_open : string := "<|assistant|>" ++ nl.

(** Python [role == lit] for a string literal [lit]. *)
Definition role_eqb (role : pyval) (lit : string) : bool :=
  match role with
  | PStr r => String.eqb r lit
  | _ => false
  end.

(** Lines 57-65: the segment one message contributes, if any. *)
Definition msg_segment (msg : pyval) : outcome (option string) :=
  match py_get msg "role" (PStr "user") with
  | Exc e => Exc e
  | Ret role =>
      match py_get msg "content" (PStr "") with
      | Exc e => Exc e
      | Ret content =>
          if role_eqb role "system" then
            Ret (Some ("<|system|>" ++ nl ++ py_str content ++ "</s>"))
          else if role_eqb role "user" then
            Ret (Some ("<|user|>" ++ nl ++ py_str content ++ "</s>"))
          else if role_eqb role "assistant" then
            Ret (Some ("<|assistant|>" ++ nl ++ py_str content ++ "</s>"))
          else Ret None
      end
  end.

(** Lines 55-66: the loop over [messages] filling [prompt_parts]. *)
Fixpoint render_parts (msgs : list pyval) : outcome (list string) :=
  match msgs with
  | [] => Ret []
  | msg :: rest =>
      match msg_segment msg with
      | Exc e => Exc e
      | Ret seg =>
          match render_parts rest with
          | Exc e => Exc e
          | Ret parts =>
              Ret (match seg with Some s => s :: parts | None => parts end)
          end
      end
  end.

(** Lines 54-69: the prompt string. *)
Definition build_prompt (messages : pyval) : outcome string :=
  match py_iter messages with
  | Exc e => Exc e
  | Ret msgs =>
      match render_parts msgs with
      | Exc e => Exc e
      | Ret parts => Ret (String.concat "" (app parts [assistant_open]))
      end
  end.

Definition default_stop : pyval :=
  PList [PStr "</s>"; PStr "<|user|>"; PStr "<|system|>"].

(** Lines 72-80. *)
Definition sampling_params_of (params : pydict) : SamplingParams :=
  {| sp_temperature := dict_get params "temperature" (PFloat "0.7");
     sp_top_p := dict_get params "top_p" (PFloat "0.9");
     sp_top_k := dict_get params "top_k" (PInt 50);
     sp_max_tokens := dict_get params "max_tokens" (PInt 2048);
     sp_stop := dict_get params "stop" default_stop;
     sp_presence_penalty := dict_get params "presence_penalty" (PFloat "0.0");
     sp_frequency_penalty := dict_get params "frequency_penalty" (PFloat "0.0") |}.

Section Handler.

(** [llm.generate]: the vLLM engine, opaque. *)
Variable generate : list string -> SamplingParams -> outcome (list RequestOutput).
(** [MODEL_NAME], read from the environment at start-up. *)
Variable MODEL_NAME : string.

(** [llm.generate(prompts, sampling_params)], recorded in the trace. *)
Definition llm_generate (prompts : list string) (sp : SamplingParams)
  : M (list RequestOutput) :=
  fun tr => (generate prompts sp, app tr [(prompts, sp)]).

Definition Zlen {A} (l : list A) : Z := Z.of_nat (length l).

(** Lines 84-110: the OpenAI-style response built from the first result. *)
Definition response_dict (out0 : RequestOutput) (comp0 : CompletionOutput) : pyval :=
  let generated_text := py_strip (co_text comp0) in
  let prompt_tokens := Zlen (ro_prompt_token_ids out0) in
  let completion_tokens := Zlen (co_token_ids comp0) in
  PDict [
    ("id", PStr ("notus-" ++ ro_request_id out0));
    ("object", PStr "chat.completion");
    ("model", PStr MODEL_NAME);
    ("choices", PList [PDict [
        ("index", PInt 0);
        ("message", PDict [("role", PStr "assistant");
                           ("content", PStr generated_text)]);
        ("finish_reason", PStr "stop")]]);
    ("usage", PDict [
        ("prompt_tokens", PInt prompt_tokens);
        ("completion_tokens", PInt completion_tokens);
        ("total_tokens", PInt (prompt_tokens + completion_tokens))])].

(** [generate_response(messages, params)], lines 43-110. *)
Definition generate_response (messages : pyval) (params : pydict) : M pyval :=
  prompt <- lift (build_prompt messages) ;;
  let sampling_params := sampling_params_of params in
  outputs <- llm_generate [prompt] sampling_params ;;
  out0 <- lift (py_index outputs 0) ;;
  comp0 <- lift (py_index (ro_outputs out0) 0) ;;
  ret (response_dict out0 comp0).

Definition no_messages_error : pyval :=
  PDict [("error", PStr "No messages provided in request")].

(** Lines 141-149: the [params] dict built by [handler]. *)
Definition handler_params (job_input : pydict) : pydict :=
  [("temperature", dict_get job_input "temperature" (PFloat "0.7"));
   ("max_tokens", dict_get job_input "max_tokens" (PInt 2048));
   ("top_p", dict_get job_input "top_p" (PFloat "0.9"));
   ("top_k", dict_get job_input "top_k" (PInt 50));
   ("stop", dict_get job_input "stop" default_stop);
   ("presence_penalty", dict_get job_input "presence_penalty" (PFloat "0.0"));
   ("frequency_penalty", dict_get job_input "frequency_penalty" (PFloat "0.0"))].

(** [handler(job)], lines 113-158. *)
Definition handler (job : pydict) : M pyval :=
  match dict_get job "input" (PDict []) with
  | PDict ji =>
      let messages := dict_get ji "messages" (PList []) in
      if negb (py_truthy messages) then ret no_messages_error
      else
        let params := handler_params ji in
        try_except (generate_response messages params)
          (fun e => ret (PDict [("error", PStr (exn_msg e));
                                ("error_type", PStr (exn_type e))]))
  | job_input => raise (no_get job_input)
  end.

End Handler.

(* ------------------------------------------------------------------ *)
(** ** [src/server/openmanus_bridge.py] *)

Definition obind {A B} (m : outcome A) (k : A -> outcome B) : outcome B :=
  match m with Ret a => k a | Exc e => Exc e end.

Notation "x <-? m ;; k" := (obind m (fun x => k))
  (at level 61, m at next level, right associativity).

(** A file-system entry, looked up by its absolute path. A directory lists
    the names of its immediate entries and may be unreadable. *)
Inductive node : Type :=
| NFile
| NDir (readable : bool) (names : list string)
| NLink (target : string)
| NSpecial.

Definition fs := list (string * node).

Fixpoint fs_entry (f : fs) (p : string) : option node :=
  match f with
  | [] => None
  | (q, n) :: f' => if String.eqb p q then Some n else fs_entry f' p
  end.

(** Path resolution following symbolic links, at most [fuel] of them;
    [None] for a missing path, a dangling link or a link loop. *)
Fixpoint resolve (fuel : nat) (f : fs) (p : string) : option node :=
  match fs_entry f p with
  | Some (NLink t) =>
      match fuel with
      | O => None
      | S fuel' => resolve fuel' f t
      end
  | r => r
  end.

Definition MAXSYMLINKS : nat := 40.

(** [os.path.exists] (false on any [OSError]). *)
Definition os_path_exists (f : fs) (p : string) : bool :=
  match resolve MAXSYMLINKS f p with Some _ => true | None => false end.

(** [os.path.isfile] *)
Definition os_path_isfile (f : fs) (p : string) : bool :=
  match resolve MAXSYMLINKS f p with Some NFile => true | _ => false end.

Definition OSError (cls msg p : string) : exn := mk_exn cls (msg ++ ": '" ++ p ++ "'").

(** [os.listdir] *)
Definition os_listdir (f : fs) (p : string) : outcome (list string) :=
  match resolve MAXSYMLINKS f p with
  | None => Exc (OSError "FileNotFoundError" "[Errno 2] No such file or directory" p)
  | Some (NDir true names) => Ret names
  | Some (NDir false _) => Exc (OSError "PermissionError" "[Errno 13] Permission denied" p)
  | Some _ => Exc (OSError "NotADirectoryError" "[Errno 20] Not a directory" p)
  end.

(** [os.path.join(dir, name)] for a plain entry name. *)
Definition os_path_join (dir name : string) : string := dir ++ "/" ++ name.

Record TaskRequest : Type := mk_task_request {
  task : string;
  task_type : string;
  context : pydict }.

Record TaskResponse : Type := mk_task_response {
  success : bool;
  result : option string;
  error : option string;
  files : list string }.

(** [TaskResponse(success=..., error=...)]: the declared defaults. *)
Definition TaskResponse_err (e : string) : TaskResponse :=
  {| success := false; result := None; error := Some e; files := [] |}.

(** The JSON body FastAPI sends for a [TaskResponse]. *)
Definition TaskResponse_json (r : TaskResponse) : pyval :=
  let opt o := match o with Some s => PStr s | None => PNone end in
  PDict [("success", PBool (success r)); ("result", opt (result r));
         ("error", opt (error r)); ("files", PList (map PStr (files r)))].

(** What an endpoint produces: a returned body (HTTP 200), or an
    [HTTPException] turned by FastAPI into an error status. *)
Inductive endpoint_result : Type :=
| Response (body : pyval)
| HTTPException (status_code : Z) (detail : string).

Definition workspace_path : string := "/home/ubuntu/OpenManus/workspace".

Section Bridge.

(** The global [agent]: [None] before the startup hook has set it; otherwise
    the outcome of awaiting [agent.run(task)]. *)
Variable agent : option (string -> outcome pyval).
(** The file system as seen by the request. *)
Variable files_fs : fs.

(** Lines 81-86: the workspace scan. *)
Definition scan_workspace : outcome (list string) :=
  if os_path_exists files_fs workspace_path then
    names <-? os_listdir files_fs workspace_path ;;
    Ret (filter (os_path_isfile files_fs)
                (map (os_path_join workspace_path) names))
  else Ret [].

(** Lines 72-92: the body of the [try]. *)
Definition execute_try (run : string -> outcome pyval) (request : TaskRequest)
  : outcome TaskResponse :=
  res <-? run (task request) ;;
  let result_text := if py_truthy res then py_str res else "Task completed" in
  fs_files <-? scan_workspace ;;
  Ret {| success := true; result := Some result_text; error := None;
         files := fs_files |}.

(** [execute_task(request)], lines 64-98. *)
Definition execute_task (request : TaskRequest) : endpoint_result :=
  match agent with
  | None => HTTPException 500 "Agent not initialized"
  | Some run =>
      match execute_try run request with
      | Ret r => Response (TaskResponse_json r)
      | Exc e => Response (TaskResponse_json (TaskResponse_err (exn_msg e)))
      end
  end.

(** [chat(request)], lines 100-115. *)
Definition chat (request : TaskRequest) : endpoint_result :=
  match agent with
  | None => HTTPException 500 "Agent not initialized"
  | Some run =>
      match run (task request) with
      | Ret res => Response (PDict [("success", PBool true);
                                    ("response", PStr (py_str res))])
      | Exc e => HTTPException 500 (exn_msg e)
      end
  end.

End Bridge.

(* ------------------------------------------------------------------ *)
(** ** The prompt as the spec describes it *)

(** A message's role as the spec reads it: the role value, ["user"] when
    the key is missing, kept only when it is a recognised role. *)
Definition spec_role (d : pydict) : option string :=
  match dict_get d "role" (PStr "user") with
  | PStr r =>
      if existsb (String.eqb r) ["system"; "user"; "assistant"]
      then Some r else None
  | _ => None
  end.

(** The role-delimited segment: role tag, newline, content, ["</s>"]. *)
Definition spec_segment (d : pydict) : list string :=
  match spec_role d with
  | Some r => ["<|" ++ r ++ "|>" ++ nl ++ py_str (dict_get d "content" (PStr "")) ++ "</s>"]
  | None => []
  end.

(** One segment per recognised message, in input order, then the open
    assistant marker, concatenated with no separator. *)
Definition spec_prompt (msgs : list pydict) : string :=
  String.concat "" (flat_map spec_segment msgs) ++ assistant_open.

(** A generation parameter taken from the job input, or its documented
    default when the key is absent. *)
Definition param_or (job_input : pydict) (k : string) (default : pyval) : pyval :=
  match dict_lookup job_input k with
  | Some v => v
  | None => default
  end.

(* ------------------------------------------------------------------ *)
(** ** Sample inputs *)

(** An engine answering every batch with one result that stopped on the
    length limit. *)
Definition sample_engine (prompts : list string) (sp : SamplingParams)
  : outcome (list RequestOutput) :=
  Ret [mk_request_output "req-1" [101; 102; 103]%Z
         [mk_completion " Hello there. " [7; 8]%Z (Some "length")]].

Definition sample_system : pydict :=
  [("role", PStr "system"); ("content", PStr "Be brief.")].
Definition sample_tool : pydict :=
  [("role", PStr "tool"); ("content", PStr "ignored")].
Definition sample_user : pydict := [("content", PStr "Hi")].

Definition sample_messages : list pydict := [sample_system; sample_tool; sample_user].

Definition sample_job_input : pydict :=
  [("messages", PList (map PDict sample_messages)); ("temperature", PFloat "1.5")].

Definition sample_job : pydict := [("input", PDict sample_job_input)].

Definition sample_call : call :=
  hd ([], sampling_params_of []) (snd (handler sample_engine "notus" sample_job [])).

Definition sample_response_dict : pydict :=
  match fst (handler sample_engine "notus" sample_job []) with
  | Ret (PDict d) => d
  | _ => []
  end.

Definition sample_request : TaskRequest := mk_task_request "write a poem" "general" [].
Definition sample_run (t : string) : outcome pyval := Ret (PStr "done").
Definition failing_run (t : string) : outcome pyval :=
  Exc (mk_exn "RuntimeError" "agent crashed").

Definition ws_entry (name : string) : string := os_path_join workspace_path name.

(** A listable workspace with a file, a subdirectory and a link to the file. *)
Definition sample_fs : fs :=
  [(workspace_path, NDir true ["a.txt"; "sub"; "link"]);
   (ws_entry "a.txt", NFile);
   (ws_entry "sub", NDir true []);
   (ws_entry "link", NLink (ws_entry "a.txt"))].

(** The workspace path taken by a regular file. *)
Definition file_at_workspace_fs : fs := [(workspace_path, NFile)].

(** An unreadable workspace directory holding a regular file. *)
Definition unreadable_fs : fs :=
  [(workspace_path, NDir false ["a.txt"]); (ws_entry "a.txt", NFile)].

(** An engine that raises, and one that returns no result at all. *)
Definition failing_engine (prompts : list string) (sp : SamplingParams)
  : outcome (list RequestOutput) :=
  Exc (mk_exn "RuntimeError" "CUDA out of memory").
Definition empty_engine (prompts : list string) (sp : SamplingParams)
  : outcome (list RequestOutput) := Ret [].

(** A job whose messages are a list holding a bare string. *)
Definition bad_message_job : pydict :=
  [("input", PDict [("messages", PList [PStr "hi"])])].

Definition sample_prompt : string :=
  match build_prompt (PList (map PDict sample_messages)) with
  | Ret p => p
  | Exc _ => ""
  end.

Definition sample_gr_result : pyval :=
  match fst (generate_response sample_engine "notus"
               (PList (map PDict sample_messages)) [] []) with
  | Ret r => r
  | Exc _ => PNone
  end.

(** An agent whose run returns None. *)
Definition none_run (t : string) : outcome pyval := Ret PNone.

(* ------------------------------------------------------------------ *)
(** ** Helper lemmas *)

Lemma str_app_assoc (a b c : string) : (a ++ b) ++ c = a ++ (b ++ c).
Proof. induction a as [|ch a IH]; simpl; [reflexivity | now rewrite IH]. Qed.

Lemma str_app_nil_r (a : string) : a ++ "" = a.
Proof. induction a as [|ch a IH]; simpl; [reflexivity | now rewrite IH]. Qed.

Lemma concat_empty_cons2 (p q : string) (l : list string) :
  String.concat "" (p :: q :: l) = p ++ String.concat "" (q :: l).
Proof. reflexivity. Qed.

Lemma concat_empty_snoc (parts : list string) (x : string) :
  String.concat "" (app parts [x]) = String.concat "" parts ++ x.
Proof.
  induction parts as [|p parts IH]; [reflexivity|].
  destruct parts as [|q parts].
  - reflexivity.
  - cbn [app] in *. rewrite !concat_empty_cons2, IH.
    now rewrite str_app_assoc.
Qed.

Lemma msg_segment_dict (d : pydict) :
  msg_segment (PDict d) =
  Ret (match spec_segment d with [s] => Some s | _ => None end).
Proof.
  unfold msg_segment, spec_segment, spec_role; simpl.
  destruct (dict_get d "role" (PStr "user")) as [| | | |r| |]; simpl; auto.
  destruct (String.eqb_spec r "system"); [subst; reflexivity|].
  destruct (String.eqb_spec r "user"); [subst; reflexivity|].
  destruct (String.eqb_spec r "assistant"); [subst; reflexivity|].
  reflexivity.
Qed.

Lemma render_parts_dicts (msgs : list pydict) :
  render_parts (map PDict msgs) = Ret (flat_map spec_segment msgs).
Proof.
  induction msgs as [|d msgs IH]; [reflexivity|].
  simpl. rewrite msg_segment_dict, IH.
  unfold spec_segment. destruct (spec_role d); reflexivity.
Qed.

Lemma build_prompt_dicts (msgs : list pydict) :
  build_prompt (PList (map PDict msgs)) = Ret (spec_prompt msgs).
Proof.
  unfold build_prompt; simpl. rewrite render_parts_dicts.
  unfold spec_prompt. now rewrite concat_empty_snoc.
Qed.

(* ------------------------------------------------------------------ *)
(** ** Claims *)

(** C1: for a message list with at least one message of a recognised role,
    the prompt [generate_response] hands to the engine (its only engine
    call) is the concatenation, in input order and with no separator, of
    one segment "<|role|>\n content </s>" per recognised-role message,
    followed by the open assistant marker "<|assistant|>\n". *)
Theorem C1_prompt_segments_in_order
  (generate : list string -> SamplingParams -> outcome (list RequestOutput))
  (MODEL_NAME : string) (msgs : list pydict) (params : pydict)
  (Hrec : Exists (fun d => spec_role d <> None) msgs) :
  snd (generate_response generate MODEL_NAME (PList (map PDict msgs)) params [])
  = [([String.concat "" (flat_map spec_segment msgs) ++ assistant_open],
      sampling_params_of params)].
Proof.
  clear Hrec.
  unfold generate_response, bind, lift.
  rewrite build_prompt_dicts. unfold ret, llm_generate; simpl.
  destruct (generate _ _) as [outs|e]; simpl; [|reflexivity].
  destruct (py_index outs 0) as [o|e]; simpl; [|reflexivity].
  destruct (py_index (ro_outputs o) 0); reflexivity.
Qed.

Lemma generate_response_trace generate MODEL_NAME messages params c :
  In c (snd (generate_response generate MODEL_NAME messages params [])) ->
  snd c = sampling_params_of params.
Proof.
  cbv [generate_response bind lift ret raise llm_generate].
  destruct (build_prompt messages) as [prompt|e]; simpl; [|tauto].
  destruct (generate _ _) as [outs|e]; simpl.
  2: intros [<-|[]]; reflexivity.
  destruct (py_index outs 0) as [o|e]; simpl.
  2: intros [<-|[]]; reflexivity.
  destruct (py_index (ro_outputs o) 0); simpl; intros [<-|[]]; reflexivity.
Qed.

Lemma generate_response_ret generate MODEL_NAME messages params tr r tr' :
  generate_response generate MODEL_NAME messages params tr = (Ret r, tr') ->
  exists prompts sp o rest1 c rest2,
    generate prompts sp = Ret (o :: rest1) /\ ro_outputs o = c :: rest2 /\
    r = response_dict MODEL_NAME o c.
Proof.
  cbv [generate_response bind lift ret raise llm_generate].
  destruct (build_prompt messages) as [prompt|e]; [|discriminate].
  destruct (generate _ _) as [outs|e] eqn:Hg; [|discriminate].
  destruct outs as [|o rest1]; [discriminate|]. simpl.
  destruct (ro_outputs o) as [|c rest2] eqn:Ho; [discriminate|].
  simpl. intros H; injection H as <- _.
  exists [prompt], (sampling_params_of params), o, rest1, c, rest2.
  auto.
Qed.

Lemma handler_success generate MODEL_NAME job d tr' :
  handler generate MODEL_NAME job [] = (Ret (PDict d), tr') ->
  dict_lookup d "error" = None ->
  exists prompts sp o rest1 c rest2,
    generate prompts sp = Ret (o :: rest1) /\ ro_outputs o = c :: rest2 /\
    PDict d = response_dict MODEL_NAME o c.
Proof.
  unfold handler.
  destruct (dict_get job "input" (PDict [])) as [| | | | | |ji];
    try (cbv [raise]; discriminate).
  destruct (negb (py_truthy _)).
  - cbv [ret]. intros H; injection H as <- _. discriminate.
  - unfold try_except.
    destruct (generate_response _ _ _ _ []) as [[r|e] tr1] eqn:Hgr.
    + intros H; injection H as -> _. intros _.
      exact (generate_response_ret _ _ _ _ _ _ _ Hgr).
    + cbv [ret]. intros H; injection H as <- _. discriminate.
Qed.

Lemma render_parts_skip (l1 l2 : list pyval) (x : pyval) :
  msg_segment x = Ret None ->
  render_parts (app l1 (x :: l2)) = render_parts (app l1 l2).
Proof.
  intros Hx. induction l1 as [|y l1 IH]; simpl.
  - rewrite Hx. destruct (render_parts l2); reflexivity.
  - now rewrite IH.
Qed.

(** C2: for a job whose input dict has an empty or absent ["messages"]
    list, [handler] returns exactly {"error": "No messages provided in
    request"}, raises nothing, and makes no engine call (the trace of
    engine calls is left unchanged). *)
Theorem C2_empty_messages_error
  (generate : list string -> SamplingParams -> outcome (list RequestOutput))
  (MODEL_NAME : string) (job ji : pydict) (tr : list call)
  (Hinput : dict_get job "input" (PDict []) = PDict ji)
  (Hmsgs : dict_lookup ji "messages" = None \/
           dict_lookup ji "messages" = Some (PList [])) :
  handler generate MODEL_NAME job tr =
  (Ret (PDict [("error", PStr "No messages provided in request")]), tr).
Proof.
  unfold handler. rewrite Hinput.
  unfold dict_get at 1.
  destruct Hmsgs as [-> | ->]; reflexivity.
Qed.

(** C3: every engine call made while handling a job carries, for each of
    the seven generation parameters, the job input's value unchanged when
    the key is present and the documented default when it is absent
    (temperature 0.7, top_p 0.9, top_k 50, max_tokens 2048, stop
    ["</s>", "<|user|>", "<|system|>"], both penalties 0.0). *)
Theorem C3_param_defaults
  (generate : list string -> SamplingParams -> outcome (list RequestOutput))
  (MODEL_NAME : string) (job ji : pydict) (c : call)
  (Hinput : dict_get job "input" (PDict []) = PDict ji)
  (Hcall : In c (snd (handler generate MODEL_NAME job []))) :
  snd c =
  {| sp_temperature := param_or ji "temperature" (PFloat "0.7");
     sp_top_p := param_or ji "top_p" (PFloat "0.9");
     sp_top_k := param_or ji "top_k" (PInt 50);
     sp_max_tokens := param_or ji "max_tokens" (PInt 2048);
     sp_stop := param_or ji "stop"
                  (PList [PStr "</s>"; PStr "<|user|>"; PStr "<|system|>"]);
     sp_presence_penalty := param_or ji "presence_penalty" (PFloat "0.0");
     sp_frequency_penalty := param_or ji "frequency_penalty" (PFloat "0.0") |}.
Proof.
  revert Hcall. unfold handler. rewrite Hinput.
  destruct (negb (py_truthy _)); [cbv [ret]; simpl; tauto|].
  intros Hcall.
  assert (Hin : In c (snd (generate_response generate MODEL_NAME
                 (dict_get ji "messages" (PList [])) (handler_params ji) []))).
  { revert Hcall. unfold try_except.
    destruct (generate_response _ _ _ _ []) as [[r|e] tr1]; cbv [ret]; simpl; tauto. }
  rewrite (generate_response_trace _ _ _ _ _ Hin). reflexivity.
Qed.

(** C4: a message dict whose role key holds a value other than "system",
    "user" or "assistant" contributes nothing: [generate_response] on the
    list with that message behaves exactly as on the list without it
    (same prompt, same engine call, same result). *)
Theorem C4_unknown_role_dropped
  (generate : list string -> SamplingParams -> outcome (list RequestOutput))
  (MODEL_NAME : string) (l1 l2 : list pyval) (d : pydict) (role : pyval)
  (params : pydict) (tr : list call)
  (Hrole : dict_lookup d "role" = Some role)
  (Hunk : role <> PStr "system" /\ role <> PStr "user" /\
          role <> PStr "assistant") :
  generate_response generate MODEL_NAME (PList (app l1 (PDict d :: l2))) params tr =
  generate_response generate MODEL_NAME (PList (app l1 l2)) params tr.
Proof.
  assert (Hseg : msg_segment (PDict d) = Ret None).
  { unfold msg_segment, py_get, dict_get. rewrite Hrole. simpl.
    destruct Hunk as (Hs & Hu & Ha).
    destruct role as [| | | |r| |]; try reflexivity.
    unfold role_eqb.
    destruct (String.eqb_spec r "system"); [subst; congruence|].
    destruct (String.eqb_spec r "user"); [subst; congruence|].
    destruct (String.eqb_spec r "assistant"); [subst; congruence|].
    reflexivity. }
  unfold generate_response, build_prompt. simpl.
  now rewrite (render_parts_skip l1 l2 _ Hseg).
Qed.

(** C5: when [agent.run] raises, POST /execute returns (HTTP success) the
    body {success: false, result: null, error: str(e), files: []}, while
    POST /chat raises an HTTP 500 fault carrying str(e). *)
Theorem C5_execute_vs_chat_errors
  (run : string -> outcome pyval) (fsys : fs) (request : TaskRequest) (e : exn)
  (Hrun : run (task request) = Exc e) :
  execute_task (Some run) fsys request =
    Response (PDict [("success", PBool false); ("result", PNone);
                     ("error", PStr (exn_msg e)); ("files", PList [])]) /\
  chat (Some run) request = HTTPException 500 (exn_msg e).
Proof.
  unfold execute_task, execute_try, chat. rewrite Hrun. split; reflexivity.
Qed.

(** C6: every successful handler response (a result dict without an
    "error" key) has a single choice whose finish_reason is "stop", for
    any engine, whatever termination reason the engine reported. *)
Theorem C6_finish_reason_stop
  (generate : list string -> SamplingParams -> outcome (list RequestOutput))
  (MODEL_NAME : string) (job d : pydict) (tr' : list call)
  (Hret : handler generate MODEL_NAME job [] = (Ret (PDict d), tr'))
  (Hok : dict_lookup d "error" = None) :
  exists choice,
    dict_lookup d "choices" = Some (PList [PDict choice]) /\
    dict_lookup choice "finish_reason" = Some (PStr "stop").
Proof.
  destruct (handler_success _ _ _ _ _ Hret Hok)
    as (prompts & sp & o & rest1 & c & rest2 & _ & _ & Hd).
  injection Hd as ->. eexists. split; reflexivity.
Qed.

(** C7: in every successful handler response, usage.prompt_tokens and
    usage.completion_tokens are the lengths of the prompt and completion
    token-id lists of the engine's first result, and usage.total_tokens is
    their sum. *)
Theorem C7_usage_total
  (generate : list string -> SamplingParams -> outcome (list RequestOutput))
  (MODEL_NAME : string) (job d : pydict) (tr' : list call)
  (Hret : handler generate MODEL_NAME job [] = (Ret (PDict d), tr'))
  (Hok : dict_lookup d "error" = None) :
  exists prompts sp o rest1 c rest2 usage,
    generate prompts sp = Ret (o :: rest1) /\ ro_outputs o = c :: rest2 /\
    dict_lookup d "usage" = Some (PDict usage) /\
    dict_lookup usage "prompt_tokens" =
      Some (PInt (Z.of_nat (length (ro_prompt_token_ids o)))) /\
    dict_lookup usage "completion_tokens" =
      Some (PInt (Z.of_nat (length (co_token_ids c)))) /\
    dict_lookup usage "total_tokens" =
      Some (PInt (Z.of_nat (length (ro_prompt_token_ids o)) +
                  Z.of_nat (length (co_token_ids c)))).
Proof.
  destruct (handler_success _ _ _ _ _ Hret Hok)
    as (prompts & sp & o & rest1 & c & rest2 & Hg & Ho & Hd).
  injection Hd as ->.
  exists prompts, sp, o, rest1, c, rest2. eexists.
  repeat split; assumption || reflexivity.
Qed.

(** C9: a message dict without a "role" key is rendered as a user turn
    (not dropped); a message without a "content" key whose role is absent
    or recognised contributes a segment with empty content. *)
Theorem C9_missing_role_and_content
  (d : pydict) :
  (dict_lookup d "role" = None ->
   msg_segment (PDict d) =
   Ret (Some ("<|user|>" ++ nl ++ py_str (dict_get d "content" (PStr "")) ++ "</s>"))) /\
  (dict_lookup d "content" = None ->
   (dict_lookup d "role" = None \/
    exists r, dict_lookup d "role" = Some (PStr r) /\
              In r ["system"; "user"; "assistant"]) ->
   exists r, msg_segment (PDict d) = Ret (Some ("<|" ++ r ++ "|>" ++ nl ++ "</s>"))).
Proof.
  split.
  - intros Hr. unfold msg_segment, py_get, dict_get. rewrite Hr.
    reflexivity.
  - intros Hc Hr. unfold msg_segment, py_get, dict_get. rewrite Hc.
    destruct Hr as [Hr | (r & Hr & Hin)]; rewrite Hr.
    + exists "user". reflexivity.
    + exists r. simpl in Hin.
      destruct Hin as [<-|[<-|[<-|[]]]]; reflexivity.
Qed.

Lemma execute_task_ran run fsys request v :
  run (task request) = Ret v ->
  execute_task (Some run) fsys request =
  match scan_workspace fsys with
  | Ret fl => Response (TaskResponse_json
                {| success := true;
                   result := Some (if py_truthy v then py_str v else "Task completed");
                   error := None; files := fl |})
  | Exc e => Response (TaskResponse_json (TaskResponse_err (exn_msg e)))
  end.
Proof.
  intros Hrun. unfold execute_task, execute_try. rewrite Hrun. simpl.
  destruct (scan_workspace fsys); reflexivity.
Qed.

Lemma scan_workspace_cases fsys :
  (os_path_exists fsys workspace_path = false -> scan_workspace fsys = Ret []) /\
  (forall names, resolve MAXSYMLINKS fsys workspace_path = Some (NDir true names) ->
     scan_workspace fsys =
     Ret (filter (os_path_isfile fsys) (map (os_path_join workspace_path) names))) /\
  (forall n, resolve MAXSYMLINKS fsys workspace_path = Some n ->
     (forall names, n <> NDir true names) ->
     exists e, os_listdir fsys workspace_path = Exc e /\
               scan_workspace fsys = Exc e).
Proof.
  unfold scan_workspace. repeat split.
  - intros ->. reflexivity.
  - intros names Hr. unfold os_path_exists, os_listdir. rewrite Hr. reflexivity.
  - intros n Hr Hn. unfold os_path_exists, os_listdir. rewrite Hr.
    destruct n as [|[] names| |]; try (eexists; split; reflexivity).
    exfalso. exact (Hn names eq_refl).
Qed.

(** C8 (as stated) fails: the agent returns the truthy "done", yet when the
    workspace path is a regular file [os.listdir] raises inside the [try]
    and the body's result is null. *)
Lemma C8_counterexample :
  ~ (forall run fsys request v,
       run (task request) = Ret v ->
       exists d, execute_task (Some run) fsys request = Response (PDict d) /\
         dict_lookup d "result" =
         Some (PStr (if py_truthy v then py_str v else "Task completed"))).
Proof.
  intros H.
  destruct (H sample_run file_at_workspace_fs sample_request (PStr "done") eq_refl)
    as (d & Hd & Hr).
  vm_compute in Hd. injection Hd as <-. vm_compute in Hr. discriminate.
Qed.

(** C8 (amended): when the agent run returns [v] and the workspace path is
    absent or a listable directory, the response succeeds with result
    str(v) if [v] is truthy and "Task completed" otherwise; when the
    workspace path exists but cannot be listed, the exception raised by
    [os.listdir] is caught and the response has success false, a null
    result and that exception's message as error. *)
Theorem C8_result_text_amended
  (run : string -> outcome pyval) (fsys : fs) (request : TaskRequest) (v : pyval)
  (Hrun : run (task request) = Ret v) :
  ((os_path_exists fsys workspace_path = false \/
    exists names, resolve MAXSYMLINKS fsys workspace_path = Some (NDir true names)) ->
   exists d, execute_task (Some run) fsys request = Response (PDict d) /\
     dict_lookup d "success" = Some (PBool true) /\
     dict_lookup d "result" =
     Some (PStr (if py_truthy v then py_str v else "Task completed"))) /\
  (forall n, resolve MAXSYMLINKS fsys workspace_path = Some n ->
   (forall names, n <> NDir true names) ->
   exists d e, os_listdir fsys workspace_path = Exc e /\
     execute_task (Some run) fsys request = Response (PDict d) /\
     dict_lookup d "success" = Some (PBool false) /\
     dict_lookup d "result" = Some PNone /\
     dict_lookup d "error" = Some (PStr (exn_msg e))).
Proof.
  rewrite (execute_task_ran _ _ _ _ Hrun).
  destruct (scan_workspace_cases fsys) as (Habs & Hdir & Hbad).
  split.
  - intros [Hex | (names & Hr)].
    + rewrite (Habs Hex). eexists. split; [reflexivity|]. split; reflexivity.
    + rewrite (Hdir names Hr). eexists. split; [reflexivity|]. split; reflexivity.
  - intros n Hr Hn. destruct (Hbad n Hr Hn) as (e & Hls & He). rewrite He.
    exists (match TaskResponse_json (TaskResponse_err (exn_msg e)) with
            | PDict d => d | _ => [] end), e.
    split; [exact Hls|]. split; [reflexivity|]. repeat split.
Qed.

(** C10 (as stated) fails: the workspace directory exists and holds the
    regular file a.txt, but it cannot be listed; [os.listdir] raises inside
    the [try], so the response has success false and no files. *)
Lemma C10_counterexample :
  ~ (forall run fsys request v,
       run (task request) = Ret v ->
       forall readable names,
         resolve MAXSYMLINKS fsys workspace_path = Some (NDir readable names) ->
         exists d, execute_task (Some run) fsys request = Response (PDict d) /\
           dict_lookup d "success" = Some (PBool true) /\
           dict_lookup d "files" =
           Some (PList (map PStr
             (filter (fun p => match resolve MAXSYMLINKS fsys p with
                               | Some NFile => true | _ => false end)
                     (map (os_path_join workspace_path) names))))).
Proof.
  intros H.
  destruct (H sample_run unreadable_fs sample_request (PStr "done") eq_refl
              false ["a.txt"] eq_refl) as (d & Hd & Hs & _).
  vm_compute in Hd. injection Hd as <-. vm_compute in Hs. discriminate.
Qed.

(** C10 (amended): when the agent run returns [v]: if the workspace path
    does not exist (or is a dangling link) the response succeeds with no
    files; if it is a listable directory the response succeeds and [files]
    holds, in listing order, the full paths of the immediate entries that
    [os.path.isfile] accepts (regular files and links to them; not
    subdirectories); if the path exists but cannot be listed (a regular
    file, an unreadable directory) the response has success false, a null
    result, no files, and as error the message of the exception raised by
    [os.listdir]. *)
Theorem C10_workspace_files_amended
  (run : string -> outcome pyval) (fsys : fs) (request : TaskRequest) (v : pyval)
  (Hrun : run (task request) = Ret v) :
  let text := if py_truthy v then py_str v else "Task completed" in
  (os_path_exists fsys workspace_path = false ->
   execute_task (Some run) fsys request =
   Response (PDict [("success", PBool true); ("result", PStr text);
                    ("error", PNone); ("files", PList [])])) /\
  (forall names,
   resolve MAXSYMLINKS fsys workspace_path = Some (NDir true names) ->
   execute_task (Some run) fsys request =
   Response (PDict [("success", PBool true); ("result", PStr text);
                    ("error", PNone);
                    ("files", PList (map PStr
                       (filter (os_path_isfile fsys)
                               (map (os_path_join workspace_path) names))))])) /\
  (forall n, resolve MAXSYMLINKS fsys workspace_path = Some n ->
   (forall names, n <> NDir true names) ->
   exists e, os_listdir fsys workspace_path = Exc e /\
   execute_task (Some run) fsys request =
   Response (PDict [("success", PBool false); ("result", PNone);
                    ("error", PStr (exn_msg e)); ("files", PList [])])).
Proof.
  intros text. rewrite (execute_task_ran _ _ _ _ Hrun).
  destruct (scan_workspace_cases fsys) as (Habs & Hdir & Hbad).
  split; [|split].
  - intros Hex. now rewrite (Habs Hex).
  - intros names Hr. now rewrite (Hdir names Hr).
  - intros n Hr Hn. destruct (Hbad n Hr Hn) as (e & Hls & He). rewrite He.
    exists e. split; [exact Hls | reflexivity].
Qed.

(* ------------------------------------------------------------------ *)
(** ** Witnesses: each theorem applied where its hypotheses hold *)

Lemma C1_witness :
  Exists (fun d => spec_role d <> None) sample_messages /\
  snd (generate_response sample_engine "notus" (PList (map PDict sample_messages))
         [] [])
  = [([String.concat "" (flat_map spec_segment sample_messages) ++ assistant_open],
      sampling_params_of [])].
Proof.
  assert (Hrec : Exists (fun d => spec_role d <> None) sample_messages)
    by (apply Exists_cons_hd; vm_compute; discriminate).
  split; [exact Hrec|].
  exact (C1_prompt_segments_in_order sample_engine "notus" sample_messages [] Hrec).
Defined.

Lemma C2_witness :
  dict_get [("input", PDict [("messages", PList [])])] "input" (PDict [])
    = PDict [("messages", PList [])] /\
  handler sample_engine "notus" [("input", PDict [("messages", PList [])])] [] =
  (Ret (PDict [("error", PStr "No messages provided in request")]), []).
Proof.
  split; [reflexivity|].
  apply (C2_empty_messages_error sample_engine "notus"
           [("input", PDict [("messages", PList [])])] [("messages", PList [])] []).
  - reflexivity.
  - right. reflexivity.
Defined.

Lemma C3_witness :
  In sample_call (snd (handler sample_engine "notus" sample_job [])) /\
  snd sample_call =
  {| sp_temperature := param_or sample_job_input "temperature" (PFloat "0.7");
     sp_top_p := param_or sample_job_input "top_p" (PFloat "0.9");
     sp_top_k := param_or sample_job_input "top_k" (PInt 50);
     sp_max_tokens := param_or sample_job_input "max_tokens" (PInt 2048);
     sp_stop := param_or sample_job_input "stop"
                  (PList [PStr "</s>"; PStr "<|user|>"; PStr "<|system|>"]);
     sp_presence_penalty := param_or sample_job_input "presence_penalty" (PFloat "0.0");
     sp_frequency_penalty :=
       param_or sample_job_input "frequency_penalty" (PFloat "0.0") |}.
Proof.
  assert (Hin : In sample_call (snd (handler sample_engine "notus" sample_job [])))
    by (vm_compute; left; reflexivity).
  split; [exact Hin|].
  exact (C3_param_defaults sample_engine "notus" sample_job sample_job_input
           sample_call eq_refl Hin).
Defined.

Lemma C4_witness :
  dict_lookup sample_tool "role" = Some (PStr "tool") /\
  generate_response sample_engine "notus"
    (PList (app [PDict sample_system] (PDict sample_tool :: [PDict sample_user]))) [] [] =
  generate_response sample_engine "notus"
    (PList (app [PDict sample_system] [PDict sample_user])) [] [].
Proof.
  split; [reflexivity|].
  apply (C4_unknown_role_dropped sample_engine "notus" [PDict sample_system]
           [PDict sample_user] sample_tool (PStr "tool") [] []).
  - reflexivity.
  - repeat split; discriminate.
Defined.

Lemma C5_witness :
  failing_run (task sample_request) = Exc (mk_exn "RuntimeError" "agent crashed") /\
  execute_task (Some failing_run) sample_fs sample_request =
    Response (PDict [("success", PBool false); ("result", PNone);
                     ("error", PStr "agent crashed"); ("files", PList [])]) /\
  chat (Some failing_run) sample_request = HTTPException 500 "agent crashed".
Proof.
  split; [reflexivity|].
  exact (C5_execute_vs_chat_errors failing_run sample_fs sample_request
           (mk_exn "RuntimeError" "agent crashed") eq_refl).
Defined.

Lemma sample_handler_ok :
  handler sample_engine "notus" sample_job [] =
  (Ret (PDict sample_response_dict), snd (handler sample_engine "notus" sample_job [])).
Proof. vm_compute. reflexivity. Qed.

Lemma sample_response_no_error : dict_lookup sample_response_dict "error" = None.
Proof. vm_compute. reflexivity. Qed.

Lemma C6_witness :
  dict_lookup sample_response_dict "error" = None /\
  exists choice,
    dict_lookup sample_response_dict "choices" = Some (PList [PDict choice]) /\
    dict_lookup choice "finish_reason" = Some (PStr "stop").
Proof.
  split; [exact sample_response_no_error|].
  exact (C6_finish_reason_stop sample_engine "notus" sample_job sample_response_dict
           _ sample_handler_ok sample_response_no_error).
Defined.

Lemma C7_witness :
  dict_lookup sample_response_dict "error" = None /\
  exists prompts sp o rest1 c rest2 usage,
    sample_engine prompts sp = Ret (o :: rest1) /\ ro_outputs o = c :: rest2 /\
    dict_lookup sample_response_dict "usage" = Some (PDict usage) /\
    dict_lookup usage "prompt_tokens" =
      Some (PInt (Z.of_nat (length (ro_prompt_token_ids o)))) /\
    dict_lookup usage "completion_tokens" =
      Some (PInt (Z.of_nat (length (co_token_ids c)))) /\
    dict_lookup usage "total_tokens" =
      Some (PInt (Z.of_nat (length (ro_prompt_token_ids o)) +
                  Z.of_nat (length (co_token_ids c)))).
Proof.
  split; [exact sample_response_no_error|].
  exact (C7_usage_total sample_engine "notus" sample_job sample_response_dict
           _ sample_handler_ok sample_response_no_error).
Defined.

Lemma C8_witness :
  sample_run (task sample_request) = Ret (PStr "done") /\
  exists d, execute_task (Some sample_run) sample_fs sample_request = Response (PDict d) /\
    dict_lookup d "success" = Some (PBool true) /\
    dict_lookup d "result" = Some (PStr "done").
Proof.
  split; [reflexivity|].
  destruct (C8_result_text_amended sample_run sample_fs sample_request (PStr "done")
              eq_refl) as [Hok _].
  apply Hok. right. exists ["a.txt"; "sub"; "link"]. reflexivity.
Defined.

Lemma C10_witness :
  sample_run (task sample_request) = Ret (PStr "done") /\
  execute_task (Some sample_run) sample_fs sample_request =
  Response (PDict [("success", PBool true); ("result", PStr "done");
                   ("error", PNone);
                   ("files", PList [PStr (ws_entry "a.txt"); PStr (ws_entry "link")])]).
Proof.
  split; [reflexivity|].
  destruct (C10_workspace_files_amended sample_run sample_fs sample_request (PStr "done")
              eq_refl) as (_ & Hdir & _).
  exact (Hdir ["a.txt"; "sub"; "link"] eq_refl).
Defined.

(* ------------------------------------------------------------------ *)
(** ** Further properties of [handler] and the bridge *)

(** When the messages are truthy but rendering the prompt raises (a
    message that is not a dict, messages that are not iterable), [handler]
    returns {"error": str(e), "error_type": class name} and the engine is
    never called. *)
Theorem handler_prompt_error
  (generate : list string -> SamplingParams -> outcome (list RequestOutput))
  (MODEL_NAME : string) (job ji : pydict) (e : exn)
  (Hinput : dict_get job "input" (PDict []) = PDict ji)
  (Htruthy : py_truthy (dict_get ji "messages" (PList [])) = true)
  (Hprompt : build_prompt (dict_get ji "messages" (PList [])) = Exc e) :
  handler generate MODEL_NAME job [] =
  (Ret (PDict [("error", PStr (exn_msg e)); ("error_type", PStr (exn_type e))]), []).
Proof.
  unfold handler. rewrite Hinput, Htruthy. simpl.
  unfold try_except, generate_response, bind, lift. rewrite Hprompt.
  reflexivity.
Qed.

(** When the engine raises, [handler] reports that exception as
    {"error": ..., "error_type": ...} after exactly one engine call: there
    is no retry. *)
Theorem handler_engine_error
  (generate : list string -> SamplingParams -> outcome (list RequestOutput))
  (MODEL_NAME : string) (job ji : pydict) (prompt : string) (e : exn)
  (Hinput : dict_get job "input" (PDict []) = PDict ji)
  (Htruthy : py_truthy (dict_get ji "messages" (PList [])) = true)
  (Hprompt : build_prompt (dict_get ji "messages" (PList [])) = Ret prompt)
  (Hgen : generate [prompt] (sampling_params_of (handler_params ji)) = Exc e) :
  handler generate MODEL_NAME job [] =
  (Ret (PDict [("error", PStr (exn_msg e)); ("error_type", PStr (exn_type e))]),
   [([prompt], sampling_params_of (handler_params ji))]).
Proof.
  unfold handler. rewrite Hinput, Htruthy. simpl.
  unfold try_except, generate_response, bind, lift, llm_generate.
  rewrite Hprompt. cbv [ret]. rewrite Hgen. reflexivity.
Qed.

(** When the engine returns no result, or a first result without any
    completion, the indexing [outputs[0].outputs[0]] raises and [handler]
    returns the IndexError as {"error": "list index out of range",
    "error_type": "IndexError"}. *)
Theorem handler_empty_engine_output
  (generate : list string -> SamplingParams -> outcome (list RequestOutput))
  (MODEL_NAME : string) (job ji : pydict) (prompt : string)
  (Hinput : dict_get job "input" (PDict []) = PDict ji)
  (Htruthy : py_truthy (dict_get ji "messages" (PList [])) = true)
  (Hprompt : build_prompt (dict_get ji "messages" (PList [])) = Ret prompt)
  (Hgen : generate [prompt] (sampling_params_of (handler_params ji)) = Ret [] \/
          exists o rest,
            generate [prompt] (sampling_params_of (handler_params ji)) = Ret (o :: rest) /\
            ro_outputs o = []) :
  fst (handler generate MODEL_NAME job []) =
  Ret (PDict [("error", PStr "list index out of range");
              ("error_type", PStr "IndexError")]).
Proof.
  unfold handler. rewrite Hinput, Htruthy. simpl.
  unfold try_except, generate_response, bind, lift, llm_generate.
  rewrite Hprompt. cbv [ret].
  destruct Hgen as [Hg | (o & rest & Hg & Ho)]; rewrite Hg; simpl.
  - reflexivity.
  - unfold py_index; rewrite Ho. reflexivity.
Qed.

(** Whatever the job and the engine, [handler] calls the engine at most
    once, and always with a batch of exactly one prompt. *)
Theorem handler_at_most_one_call
  (generate : list string -> SamplingParams -> outcome (list RequestOutput))
  (MODEL_NAME : string) (job : pydict) :
  snd (handler generate MODEL_NAME job []) = [] \/
  exists prompt sp, snd (handler generate MODEL_NAME job []) = [([prompt], sp)].
Proof.
  unfold handler.
  destruct (dict_get job "input" (PDict [])) as [| | | | | |ji];
    try (left; reflexivity).
  destruct (negb _); [left; reflexivity|].
  unfold try_except, generate_response, bind, lift, llm_generate.
  destruct (build_prompt _) as [prompt|e]; cbv [ret raise]; [|left; reflexivity].
  right. exists prompt, (sampling_params_of (handler_params ji)).
  destruct (generate _ _) as [outs|e]; [|reflexivity].
  destruct (py_index outs 0) as [o|e]; [|reflexivity].
  destruct (py_index (ro_outputs o) 0); reflexivity.
Qed.

(** When no message of the list renders a segment, the engine is still
    called, with the bare prompt "<|assistant|>\n". *)
Theorem generate_response_no_segments
  (generate : list string -> SamplingParams -> outcome (list RequestOutput))
  (MODEL_NAME : string) (msgs : list pydict) (params : pydict)
  (Hnone : Forall (fun d => msg_segment (PDict d) = Ret None) msgs) :
  snd (generate_response generate MODEL_NAME (PList (map PDict msgs)) params []) =
  [([assistant_open], sampling_params_of params)].
Proof.
  assert (Hparts : render_parts (map PDict msgs) = Ret []).
  { induction Hnone as [|d msgs Hd _ IH]; [reflexivity|].
    simpl. rewrite Hd, IH. reflexivity. }
  unfold generate_response, bind, lift, llm_generate, build_prompt. simpl.
  rewrite Hparts. cbv [ret]. simpl.
  destruct (generate _ _) as [outs|e]; [|reflexivity].
  destruct (py_index outs 0) as [o|e]; [|reflexivity].
  destruct (py_index (ro_outputs o) 0); reflexivity.
Qed.

Lemma lstrip_list_head (l l' : list ascii) (c : ascii) :
  lstrip_list l = c :: l' -> py_isspace c = false.
Proof.
  induction l as [|x l IH]; simpl; [discriminate|].
  destruct (py_isspace x) eqn:Hx; [exact IH|].
  intros H; injection H as <- _. exact Hx.
Qed.

Lemma lstrip_list_app (l m : list ascii) :
  lstrip_list (app l m) =
  match lstrip_list l with [] => lstrip_list m | x => app x m end.
Proof.
  induction l as [|x l IH]; simpl; [reflexivity|].
  destruct (py_isspace x); [exact IH|reflexivity].
Qed.

Lemma last_cons_nonempty {A} (a d : A) (l : list A) :
  l <> [] -> last (a :: l) d = last l d.
Proof. destruct l; [congruence | reflexivity]. Qed.

Lemma py_strip_edges (s : string) (c : ascii) (l : list ascii) :
  list_ascii_of_string (py_strip s) = c :: l ->
  py_isspace c = false /\ py_isspace (last (c :: l) c) = false.
Proof.
  unfold py_strip. rewrite list_ascii_of_string_of_list_ascii.
  destruct (lstrip_list (list_ascii_of_string s)) as [|c0 a] eqn:Ha;
    [simpl; discriminate|].
  pose proof (lstrip_list_head _ _ _ Ha) as Hc0.
  simpl rev. rewrite lstrip_list_app.
  assert (H1 : lstrip_list [c0] = [c0]) by (simpl; now rewrite Hc0).
  destruct (lstrip_list (rev a)) as [|b bs] eqn:Hb.
  - rewrite H1. simpl. intros H; injection H as <- <-. simpl. auto.
  - pose proof (lstrip_list_head _ _ _ Hb) as Hbs.
    rewrite rev_app_distr. cbn [rev app].
    intros H; injection H as <- <-. split; [exact Hc0|].
    rewrite last_cons_nonempty by (destruct (rev bs); discriminate).
    rewrite last_last. exact Hbs.
Qed.

(** A successful [generate_response] answers with the first completion's
    text stripped: the message content is [strip] of that text, and it
    neither starts nor ends with a whitespace character. *)
Theorem generate_response_content_stripped
  (generate : list string -> SamplingParams -> outcome (list RequestOutput))
  (MODEL_NAME : string) (messages : pyval) (params : pydict) (r : pyval)
  (tr' : list call)
  (Hret : generate_response generate MODEL_NAME messages params [] = (Ret r, tr')) :
  exists prompts sp o rest1 c rest2 text,
    generate prompts sp = Ret (o :: rest1) /\ ro_outputs o = c :: rest2 /\
    r = response_dict MODEL_NAME o c /\
    text = py_strip (co_text c) /\
    (forall ch l, list_ascii_of_string text = ch :: l ->
       py_isspace ch = false /\ py_isspace (last (ch :: l) ch) = false).
Proof.
  destruct (generate_response_ret _ _ _ _ _ _ _ Hret)
    as (prompts & sp & o & rest1 & c & rest2 & Hg & Ho & Hr).
  exists prompts, sp, o, rest1, c, rest2, (py_strip (co_text c)).
  split; [exact Hg|]. split; [exact Ho|]. split; [exact Hr|].
  split; [reflexivity|].
  intros ch l Hl. exact (py_strip_edges _ _ _ Hl).
Qed.

(** On a falsy agent result (None, "", ...), /execute reports
    "Task completed" while /chat returns str(result) as is: /chat has no
    such substitution. *)
Theorem chat_execute_falsy_result
  (run : string -> outcome pyval) (fsys : fs) (request : TaskRequest) (v : pyval)
  (Hrun : run (task request) = Ret v)
  (Hfalsy : py_truthy v = false)
  (Hscan : os_path_exists fsys workspace_path = false \/
           exists names, resolve MAXSYMLINKS fsys workspace_path = Some (NDir true names)) :
  chat (Some run) request =
    Response (PDict [("success", PBool true); ("response", PStr (py_str v))]) /\
  exists d, execute_task (Some run) fsys request = Response (PDict d) /\
    dict_lookup d "result" = Some (PStr "Task completed").
Proof.
  split; [unfold chat; now rewrite Hrun|].
  rewrite (execute_task_ran _ _ _ _ Hrun), Hfalsy.
  destruct (scan_workspace_cases fsys) as (Habs & Hdir & _).
  destruct Hscan as [Hex | (names & Hr)].
  - rewrite (Habs Hex). eexists. split; reflexivity.
  - rewrite (Hdir names Hr). eexists. split; reflexivity.
Qed.

(* ------------------------------------------------------------------ *)
(** ** Witnesses of the further properties *)

Lemma handler_prompt_error_witness :
  handler sample_engine "notus" bad_message_job [] =
  (Ret (PDict [("error", PStr "'str' object has no attribute 'get'");
               ("error_type", PStr "AttributeError")]), []).
Proof.
  exact (handler_prompt_error sample_engine "notus" bad_message_job
           [("messages", PList [PStr "hi"])]
           (AttributeError "'str' object has no attribute 'get'")
           eq_refl eq_refl eq_refl).
Defined.

Lemma handler_engine_error_witness :
  handler failing_engine "notus" sample_job [] =
  (Ret (PDict [("error", PStr "CUDA out of memory");
               ("error_type", PStr "RuntimeError")]),
   [([sample_prompt], sampling_params_of (handler_params sample_job_input))]).
Proof.
  exact (handler_engine_error failing_engine "notus" sample_job sample_job_input
           sample_prompt (mk_exn "RuntimeError" "CUDA out of memory")
           eq_refl eq_refl eq_refl eq_refl).
Defined.

Lemma handler_empty_engine_output_witness :
  fst (handler empty_engine "notus" sample_job []) =
  Ret (PDict [("error", PStr "list index out of range");
              ("error_type", PStr "IndexError")]).
Proof.
  apply (handler_empty_engine_output empty_engine "notus" sample_job
           sample_job_input sample_prompt eq_refl eq_refl).
  - vm_compute. reflexivity.
  - left. reflexivity.
Defined.

Lemma generate_response_no_segments_witness :
  snd (generate_response sample_engine "notus" (PList (map PDict [sample_tool])) [] []) =
  [([assistant_open], sampling_params_of [])].
Proof.
  apply (generate_response_no_segments sample_engine "notus" [sample_tool] []).
  constructor; [vm_compute; reflexivity | constructor].
Defined.

Lemma generate_response_content_stripped_witness :
  exists prompts sp o rest1 c rest2 text,
    sample_engine prompts sp = Ret (o :: rest1) /\ ro_outputs o = c :: rest2 /\
    sample_gr_result = response_dict "notus" o c /\
    text = py_strip (co_text c) /\
    (forall ch l, list_ascii_of_string text = ch :: l ->
       py_isspace ch = false /\ py_isspace (last (ch :: l) ch) = false).
Proof.
  assert (H : generate_response sample_engine "notus"
                (PList (map PDict sample_messages)) [] [] =
              (Ret sample_gr_result,
               snd (generate_response sample_engine "notus"
                      (PList (map PDict sample_messages)) [] [])))
    by (vm_compute; reflexivity).
  exact (generate_response_content_stripped sample_engine "notus" _ [] _ _ H).
Defined.

Lemma chat_execute_falsy_result_witness :
  chat (Some none_run) sample_request =
    Response (PDict [("success", PBool true); ("response", PStr "None")]) /\
  exists d, execute_task (Some none_run) sample_fs sample_request = Response (PDict d) /\
    dict_lookup d "result" = Some (PStr "Task completed").
Proof.
  apply (chat_execute_falsy_result none_run sample_fs sample_request PNone
           eq_refl eq_refl).
  right. exists ["a.txt"; "sub"; "link"]. reflexivity.
Defined.
